(** * RISC-V Composable Extensions (CX): the CSR trace hooks of target/riscv/cx.c

    The eight functions of cx.c are embedded as computations of a small
    state-and-failure monad over the machine they run on.  The claims of
    the specification about the CX register window are then stated over
    these computations and settled. *)

From Stdlib Require Import ZArith List Lia.
From stdpp Require Import base option list gmap.

Local Open Scope Z_scope.

(** ** Machine integers

    [uint32_t] and [target_ulong] are unsigned machine words.  The hooks do
    no arithmetic on them: every value travels unchanged from the argument
    list to the trace call, so no wrap-around is ever applied. *)

Definition uint32_t : Type := Z.
Definition target_ulong : Type := Z.

(** ** The CPU state

    Modelled from the spec: cpu.h, which declares [CPURISCVState], is not
    among the sources.  cx.c reads one field of it, [mhartid].  The window
    coordinates (Selector, Set-Selector, Index) are the per-hart
    [CxWindowState] of the specification, held in the hart's state. *)

Record CxWindowState : Type := mkCxWindowState {
  cxsel : target_ulong;
  cxsetsel : target_ulong;
  cxidx : target_ulong
}.

Record CPURISCVState : Type := mkCPURISCVState {
  mhartid : target_ulong;
  cx : CxWindowState
}.

(** ** Trace events

    Modelled from the spec: trace.h is generated and not among the
    sources.  Each of the eight trace functions is named after a register
    and an access kind, and takes the hart id, the register index and the
    value; a call records exactly that and never fails the access it
    reports on. *)

Inductive CxReg : Type := Selector | SetSelector | Index | Data.

Inductive AccessKind : Type := Read | Write.

Record TraceEvent : Type := mkTraceEvent {
  ev_reg : CxReg;
  ev_kind : AccessKind;
  ev_hartid : target_ulong;
  ev_reg_index : uint32_t;
  ev_val : target_ulong
}.

(** ** Extension modules and their registry

    Modelled from the spec: the extension registry, the module handlers
    and their status codes are collaborators the specification names;
    cx.c refers to none of them.  They are part of the machine so that the
    claims about them can be stated: [ext_calls] logs every registry
    lookup and every handler invocation. *)

Inductive ExtStatus : Type :=
  | ExtOk
  | BadSetSelector
  | BadIndex
  | ModuleStatus (code : Z).

Record ExtensionHandler : Type := mkExtensionHandler {
  ext_read : gmap (Z * Z) Z -> target_ulong -> target_ulong -> target_ulong * ExtStatus;
  ext_write : gmap (Z * Z) Z -> target_ulong -> target_ulong -> target_ulong ->
              ExtStatus * gmap (Z * Z) Z
}.

Inductive ExtCall : Type :=
  | RegistryLookup (sel : target_ulong)
  | HandlerRead (sel s i : target_ulong)
  | HandlerWrite (sel s i v : target_ulong).

Record ExtWorld : Type := mkExtWorld {
  registry : gmap Z ExtensionHandler;
  ext_store : gmap Z (gmap (Z * Z) Z);
  ext_calls : list ExtCall
}.

(** Modelled from the spec: the error kinds of a Data-register access. *)

Inductive ErrorKind : Type :=
  | NoExtensionSelected
  | UnknownExtension
  | InvalidWindow
  | ExtensionFault (code : Z).

(** ** The machine and the monad of the hooks

    [env] is the object the hooks' pointer argument [CPURISCVState *env]
    points to; [trace_log] collects the trace calls in order. *)

Record Machine : Type := mkMachine {
  env : CPURISCVState;
  trace_log : list TraceEvent;
  ext : ExtWorld
}.

Inductive Outcome (A : Type) : Type :=
  | Returned (a : A)
  | Failed (e : ErrorKind).

Arguments Returned {A} a.
Arguments Failed {A} e.

Definition Exec (A : Type) : Type := Machine -> Outcome A * Machine.

#[global] Instance exec_ret : MRet Exec :=
  fun A (a : A) (m : Machine) => (Returned a, m).

#[global] Instance exec_bind : MBind Exec :=
  fun A B (k : A -> Exec B) (c : Exec A) (m : Machine) =>
    match c m with
    | (Returned a, m') => k a m'
    | (Failed e, m') => (Failed e, m')
    end.

(** [env->mhartid] *)
Definition env_mhartid : Exec target_ulong :=
  fun m => (Returned (mhartid (env m)), m).

(** One trace call: the event is appended to the log. *)
Definition emit (e : TraceEvent) : Exec unit :=
  fun m => (Returned tt,
            {| env := env m; trace_log := trace_log m ++ [e]; ext := ext m |}).

Definition trace_cxsel_csr_read (hartid : target_ulong) (reg_index : uint32_t)
    (val : target_ulong) : Exec unit :=
  emit (mkTraceEvent Selector Read hartid reg_index val).

Definition trace_cxsel_csr_write (hartid : target_ulong) (reg_index : uint32_t)
    (val : target_ulong) : Exec unit :=
  emit (mkTraceEvent Selector Write hartid reg_index val).

Definition trace_cxsetsel_csr_read (hartid : target_ulong) (reg_index : uint32_t)
    (val : target_ulong) : Exec unit :=
  emit (mkTraceEvent SetSelector Read hartid reg_index val).

Definition trace_cxsetsel_csr_write (hartid : target_ulong) (reg_index : uint32_t)
    (val : target_ulong) : Exec unit :=
  emit (mkTraceEvent SetSelector Write hartid reg_index val).

Definition trace_cxidx_csr_read (hartid : target_ulong) (reg_index : uint32_t)
    (val : target_ulong) : Exec unit :=
  emit (mkTraceEvent Index Read hartid reg_index val).

Definition trace_cxidx_csr_write (hartid : target_ulong) (reg_index : uint32_t)
    (val : target_ulong) : Exec unit :=
  emit (mkTraceEvent Index Write hartid reg_index val).

Definition trace_cxdata_csr_read (hartid : target_ulong) (reg_index : uint32_t)
    (val : target_ulong) : Exec unit :=
  emit (mkTraceEvent Data Read hartid reg_index val).

Definition trace_cxdata_csr_write (hartid : target_ulong) (reg_index : uint32_t)
    (val : target_ulong) : Exec unit :=
  emit (mkTraceEvent Data Write hartid reg_index val).

(** ** The hooks of cx.c

    The pointer argument [env] of the C functions is the [env] component
    of the machine the computation runs on. *)

Definition cxsel_csr_read (reg_index : uint32_t) (val : target_ulong) : Exec unit :=
  hartid ← env_mhartid;
  trace_cxsel_csr_read hartid reg_index val.

Definition cxsel_csr_write (reg_index : uint32_t) (val : target_ulong) : Exec unit :=
  hartid ← env_mhartid;
  trace_cxsel_csr_write hartid reg_index val.

Definition cxsetsel_csr_read (reg_index : uint32_t) (val : target_ulong) : Exec unit :=
  hartid ← env_mhartid;
  trace_cxsetsel_csr_read hartid reg_index val.

Definition cxsetsel_csr_write (reg_index : uint32_t) (val : target_ulong) : Exec unit :=
  hartid ← env_mhartid;
  trace_cxsetsel_csr_write hartid reg_index val.

Definition cxidx_csr_read (reg_index : uint32_t) (val : target_ulong) : Exec unit :=
  hartid ← env_mhartid;
  trace_cxidx_csr_read hartid reg_index val.

Definition cxidx_csr_write (reg_index : uint32_t) (val : target_ulong) : Exec unit :=
  hartid ← env_mhartid;
  trace_cxidx_csr_write hartid reg_index val.

Definition cxdata_csr_read (reg_index : uint32_t) (val : target_ulong) : Exec unit :=
  hartid ← env_mhartid;
  trace_cxdata_csr_read hartid reg_index val.

Definition cxdata_csr_write (reg_index : uint32_t) (val : target_ulong) : Exec unit :=
  hartid ← env_mhartid;
  trace_cxdata_csr_write hartid reg_index val.

(** The hook that serves register [r] for access kind [k]. *)
Definition csr_hook (r : CxReg) (k : AccessKind)
    : uint32_t -> target_ulong -> Exec unit :=
  match r, k with
  | Selector, Read => cxsel_csr_read
  | Selector, Write => cxsel_csr_write
  | SetSelector, Read => cxsetsel_csr_read
  | SetSelector, Write => cxsetsel_csr_write
  | Index, Read => cxidx_csr_read
  | Index, Write => cxidx_csr_write
  | Data, Read => cxdata_csr_read
  | Data, Write => cxdata_csr_write
  end.

(** ** Observations on a run *)

(** The outcome and the final machine of a computation started in [m]. *)
Definition outcome_of {A : Type} (c : Exec A) (m : Machine) : Outcome A := fst (c m).
Definition machine_after {A : Type} (c : Exec A) (m : Machine) : Machine := snd (c m).

(** The hooks are [void]: the one place where the value of an access shows
    is its trace event.  [reported_value] is the value of the latest one. *)
Definition reported_value (m : Machine) : option target_ulong :=
  ev_val <$> last (trace_log m).

(** An access "returns [v] with success": the computation returns normally
    and the value it reports is [v]. *)
Definition succeeds_with (c : Exec unit) (m : Machine) (v : target_ulong) : Prop :=
  outcome_of c m = Returned tt /\ reported_value (machine_after c m) = Some v.

(** The machine [m] with the window coordinates replaced by [w]; every
    other component, [mhartid] included, is kept. *)
Definition with_cx (w : CxWindowState) (m : Machine) : Machine :=
  {| env := {| mhartid := mhartid (env m); cx := w |};
     trace_log := trace_log m;
     ext := ext m |}.

(** The three coordinate registers and where the hart keeps them. *)
Inductive Coordinate : Type := CoordSelector | CoordSetSelector | CoordIndex.

Definition coord_reg (c : Coordinate) : CxReg :=
  match c with
  | CoordSelector => Selector
  | CoordSetSelector => SetSelector
  | CoordIndex => Index
  end.

Definition coord_value (c : Coordinate) (w : CxWindowState) : target_ulong :=
  match c with
  | CoordSelector => cxsel w
  | CoordSetSelector => cxsetsel w
  | CoordIndex => cxidx w
  end.

(** The event a hook for register [r] and kind [k] reports. *)
Definition hook_event (r : CxReg) (k : AccessKind) (m : Machine)
    (reg_index : uint32_t) (val : target_ulong) : TraceEvent :=
  {| ev_reg := r; ev_kind := k; ev_hartid := mhartid (env m);
     ev_reg_index := reg_index; ev_val := val |}.

(** A hook as claim C10 words it: it returns nothing and does nothing but
    emit one trace event carrying [(env->mhartid, reg_index, val)]. *)
Definition trace_only (r : CxReg) (k : AccessKind)
    (reg_index : uint32_t) (val : target_ulong) : Exec unit :=
  fun m => (Returned tt,
            {| env := env m;
               trace_log := trace_log m ++ [hook_event r k m reg_index val];
               ext := ext m |}).

(** A trace event with its access kind forgotten. *)
Definition forget_kind (e : TraceEvent)
    : CxReg * target_ulong * uint32_t * target_ulong :=
  (ev_reg e, ev_hartid e, ev_reg_index e, ev_val e).

(** ** The specification's handler vocabulary *)

(** The store of the module selected by [sel] (empty when it has none). *)
Definition module_store (m : Machine) (sel : target_ulong) : gmap (Z * Z) Z :=
  default ∅ (ext_store (ext m) !! sel).

(** The status handler [h] gives for an access of kind [k] at the
    coordinates [(s, i)]. *)
Definition handler_status (h : ExtensionHandler) (k : AccessKind)
    (st : gmap (Z * Z) Z) (s i v : target_ulong) : ExtStatus :=
  match k with
  | Read => snd (ext_read h st s i)
  | Write => fst (ext_write h st s i v)
  end.

(** The translation of claim C8: Ok is success, a bad Set-Selector or Index
    is InvalidWindow, any other status is ExtensionFault with its code. *)
Definition translate_status (st : ExtStatus) : Outcome unit :=
  match st with
  | ExtOk => Returned tt
  | BadSetSelector | BadIndex => Failed InvalidWindow
  | ModuleStatus code => Failed (ExtensionFault code)
  end.

(** A handler for which write(s,i,v) then read(s,i) returns v. *)
Definition handler_round_trip (h : ExtensionHandler) (s i v : target_ulong) : Prop :=
  forall st : gmap (Z * Z) Z,
    fst (ext_write h st s i v) = ExtOk /\
    ext_read h (snd (ext_write h st s i v)) s i = (v, ExtOk).

(** The module of the specification's scenario: one set, number 0, of 16
    words. *)
Definition array_check (s i : target_ulong) : ExtStatus :=
  if decide (s = 0)
  then if decide (0 <= i < 16) then ExtOk else BadIndex
  else BadSetSelector.

Definition array_handler : ExtensionHandler :=
  {| ext_read := fun st s i =>
       match array_check s i with
       | ExtOk => (default 0 (st !! (s, i)), ExtOk)
       | bad => (0, bad)
       end;
     ext_write := fun st s i v =>
       match array_check s i with
       | ExtOk => (ExtOk, <[(s, i) := v]> st)
       | bad => (bad, st)
       end |}.

(** ** Machines used as concrete inputs *)

(** A world with the array module registered at selector 5. *)
Definition array_world : ExtWorld :=
  {| registry := {[ 5 := array_handler ]}; ext_store := ∅; ext_calls := [] |}.

(** Hart 0 after reset: all coordinates zero, nothing traced yet. *)
Definition reset_machine : Machine :=
  {| env := {| mhartid := 0; cx := mkCxWindowState 0 0 0 |};
     trace_log := [];
     ext := array_world |}.

(** The same hart with the window at selector [sel], set [s], index [i]. *)
Definition machine_at (sel s i : target_ulong) : Machine :=
  with_cx (mkCxWindowState sel s i) reset_machine.

(** ** The claims the code does not meet, as the specification states them *)

(** C1: with the selector at 0 a Data access fails with NoExtensionSelected
    and neither handler nor registry is touched. *)
Definition zero_selector_gate (k : AccessKind) (reg_index : uint32_t)
    (val : target_ulong) (m : Machine) : Prop :=
  cxsel (cx (env m)) = 0 ->
  outcome_of (csr_hook Data k reg_index val) m = Failed NoExtensionSelected /\
  ext_calls (ext (machine_after (csr_hook Data k reg_index val) m)) = ext_calls (ext m).

(** C2: a read of the Selector after a write of [v] returns [v]. *)
Definition selector_persistence (reg_index : uint32_t) (v val : target_ulong)
    (m : Machine) : Prop :=
  succeeds_with (cxsel_csr_write reg_index v ;; cxsel_csr_read reg_index val) m v.

(** C3: the window programmed, a Data write of [v] and then a Data read
    return [v] with success. *)
Definition program_and_round_trip (r_sel r_setsel r_idx r_data : uint32_t)
    (sel s i v val : target_ulong) : Exec unit :=
  cxsel_csr_write r_sel sel ;;
  cxsetsel_csr_write r_setsel s ;;
  cxidx_csr_write r_idx i ;;
  cxdata_csr_write r_data v ;;
  cxdata_csr_read r_data val.

Definition data_round_trip (r_sel r_setsel r_idx r_data : uint32_t)
    (sel s i v val : target_ulong) (m : Machine) : Prop :=
  forall h : ExtensionHandler,
    registry (ext m) !! sel = Some h ->
    handler_round_trip h s i v ->
    succeeds_with (program_and_round_trip r_sel r_setsel r_idx r_data sel s i v val) m v.

(** C4: with a non-zero selector that has no handler a Data access fails
    with UnknownExtension and no handler is invoked. *)
Definition unknown_selector_gate (k : AccessKind) (reg_index : uint32_t)
    (val : target_ulong) (m : Machine) : Prop :=
  cxsel (cx (env m)) <> 0 ->
  registry (ext m) !! cxsel (cx (env m)) = None ->
  outcome_of (csr_hook Data k reg_index val) m = Failed UnknownExtension /\
  ext_calls (ext (machine_after (csr_hook Data k reg_index val) m)) = ext_calls (ext m).

(** C7: a coordinate write never fails, assigns the value, and reports
    once. *)
Definition coordinate_write_assigns (c : Coordinate) (reg_index : uint32_t)
    (v : target_ulong) (m : Machine) : Prop :=
  let m' := machine_after (csr_hook (coord_reg c) Write reg_index v) m in
  outcome_of (csr_hook (coord_reg c) Write reg_index v) m = Returned tt /\
  coord_value c (cx (env m')) = v /\
  exists e, trace_log m' = trace_log m ++ [e].

(** C8: with a registered handler selected, the outcome of a Data access is
    the translation of the handler's status. *)
Definition status_translation (k : AccessKind) (reg_index : uint32_t)
    (val : target_ulong) (m : Machine) : Prop :=
  forall h : ExtensionHandler,
    cxsel (cx (env m)) <> 0 ->
    registry (ext m) !! cxsel (cx (env m)) = Some h ->
    outcome_of (csr_hook Data k reg_index val) m =
    translate_status
      (handler_status h k (module_store m (cxsel (cx (env m))))
         (cxsetsel (cx (env m))) (cxidx (cx (env m))) val).

(** ** Sequences of register accesses

    One access is one call of one of the eight hooks; a sequence of
    accesses calls them one after the other, as the code that serves CSR
    instructions does over time. *)

Record Access : Type := mkAccess {
  acc_reg : CxReg;
  acc_kind : AccessKind;
  acc_reg_index : uint32_t;
  acc_val : target_ulong
}.

Definition run_access (a : Access) : Exec unit :=
  csr_hook (acc_reg a) (acc_kind a) (acc_reg_index a) (acc_val a).

Fixpoint run_accesses (l : list Access) : Exec unit :=
  match l with
  | [] => mret tt
  | a :: l' => run_access a ;; run_accesses l'
  end.

(** The event access [a] reports on hart [hartid], and the access an event
    stands for. *)
Definition access_event (hartid : target_ulong) (a : Access) : TraceEvent :=
  {| ev_reg := acc_reg a; ev_kind := acc_kind a; ev_hartid := hartid;
     ev_reg_index := acc_reg_index a; ev_val := acc_val a |}.

Definition event_access (e : TraceEvent) : Access :=
  {| acc_reg := ev_reg e; acc_kind := ev_kind e;
     acc_reg_index := ev_reg_index e; acc_val := ev_val e |}.

(** The events logged between machine [before] and machine [after]. *)
Definition events_since (before after : Machine) : list TraceEvent :=
  drop (length (trace_log before)) (trace_log after).

(** Every event of the log is attributed to the hart of the machine. *)
Definition log_of_this_hart (m : Machine) : Prop :=
  Forall (fun e => ev_hartid e = mhartid (env m)) (trace_log m).

(** ** How a hook runs *)

Lemma csr_hook_run (r : CxReg) (k : AccessKind) (reg_index : uint32_t)
    (val : target_ulong) (m : Machine) :
  csr_hook r k reg_index val m = trace_only r k reg_index val m.
Proof. destruct r, k; reflexivity. Qed.

Lemma outcome_of_hook (r : CxReg) (k : AccessKind) (reg_index : uint32_t)
    (val : target_ulong) (m : Machine) :
  outcome_of (csr_hook r k reg_index val) m = Returned tt.
Proof. unfold outcome_of. now rewrite csr_hook_run. Qed.

Lemma machine_after_hook (r : CxReg) (k : AccessKind) (reg_index : uint32_t)
    (val : target_ulong) (m : Machine) :
  machine_after (csr_hook r k reg_index val) m =
  {| env := env m;
     trace_log := trace_log m ++ [hook_event r k m reg_index val];
     ext := ext m |}.
Proof. unfold machine_after. now rewrite csr_hook_run. Qed.

(** Sequencing after a computation that returns. *)
Lemma seq_run {A B : Type} (c : Exec A) (k : Exec B) (m m' : Machine) (a : A) :
  c m = (Returned a, m') -> (c ;; k) m = k m'.
Proof. intros H. unfold mbind, exec_bind. now rewrite H. Qed.

Lemma reported_value_snoc (cpu : CPURISCVState) (l : list TraceEvent)
    (e : TraceEvent) (w : ExtWorld) :
  reported_value {| env := cpu; trace_log := l ++ [e]; ext := w |} = Some (ev_val e).
Proof. unfold reported_value. simpl. now rewrite last_snoc. Qed.

Lemma array_handler_round_trip (i v : target_ulong) :
  0 <= i < 16 -> handler_round_trip array_handler 0 i v.
Proof.
  intros Hi st. unfold array_handler, array_check. simpl.
  destruct (decide (0 <= i < 16)) as [_ | Hn]; [| contradiction].
  simpl. split; [reflexivity |].
  now rewrite lookup_insert_eq.
Qed.

Ltac hook_steps :=
  rewrite ?outcome_of_hook, ?machine_after_hook; simpl.

(** ** The hooks on the reset hart *)

Example cxsel_csr_write_reset :
  cxsel_csr_write 0x800 5 reset_machine =
  (Returned tt,
   {| env := env reset_machine;
      trace_log := [mkTraceEvent Selector Write 0 0x800 5];
      ext := array_world |}).
Proof. reflexivity. Qed.

Example cxdata_csr_read_reset :
  cxdata_csr_read 0x803 0 reset_machine =
  (Returned tt,
   {| env := env reset_machine;
      trace_log := [mkTraceEvent Data Read 0 0x803 0];
      ext := array_world |}).
Proof. reflexivity. Qed.

Example array_handler_word :
  ext_read array_handler (snd (ext_write array_handler ∅ 0 3 0x42)) 0 3 = (0x42, ExtOk) /\
  ext_read array_handler ∅ 0 3 = (0, ExtOk) /\
  fst (ext_write array_handler ∅ 0 99 1) = BadIndex /\
  fst (ext_write array_handler ∅ 1 3 1) = BadSetSelector.
Proof. repeat split; vm_compute; reflexivity. Qed.

(** ** Claims about the Data-register gates *)

(** C1, as stated, fails: on the reset hart (selector 0) a Data read
    returns normally instead of failing with NoExtensionSelected. *)
Lemma zero_selector_gate_fails :
  ~ zero_selector_gate Read 0x800 0 reset_machine.
Proof.
  intros H. destruct (H eq_refl) as [Hout _].
  rewrite outcome_of_hook in Hout. discriminate Hout.
Qed.

(** C1, amended: while the selector is 0, a Data-register access (read or
    write) returns normally, with no error at all; no handler is invoked
    and the registry is not consulted: the extension world is untouched. *)
Theorem zero_selector_data_access (k : AccessKind) (reg_index : uint32_t)
    (val : target_ulong) (m : Machine) :
  cxsel (cx (env m)) = 0 ->
  outcome_of (csr_hook Data k reg_index val) m = Returned tt /\
  (forall e, outcome_of (csr_hook Data k reg_index val) m <> Failed e) /\
  ext (machine_after (csr_hook Data k reg_index val) m) = ext m.
Proof.
  intros _. hook_steps. repeat split. intros e. discriminate.
Qed.

Lemma zero_selector_data_access_witness :
  cxsel (cx (env reset_machine)) = 0 /\
  outcome_of (csr_hook Data Write 0x800 7) reset_machine = Returned tt.
Proof.
  split; [reflexivity |].
  apply (zero_selector_data_access Write 0x800 7 reset_machine). reflexivity.
Defined.

(** C4, as stated, fails: with selector 9, which has no handler, a Data
    write returns normally instead of failing with UnknownExtension. *)
Lemma unknown_selector_gate_fails :
  ~ unknown_selector_gate Write 0x800 1 (machine_at 9 0 0).
Proof.
  intros H. destruct H as [Hout _].
  - simpl. lia.
  - reflexivity.
  - rewrite outcome_of_hook in Hout. discriminate Hout.
Qed.

(** C4, amended: for a non-zero selector with no registered handler, a
    Data-register read or write returns normally, with no error; no handler
    is invoked and the extension world is untouched. *)
Theorem unknown_selector_data_access (k : AccessKind) (reg_index : uint32_t)
    (val : target_ulong) (m : Machine) :
  cxsel (cx (env m)) <> 0 ->
  registry (ext m) !! cxsel (cx (env m)) = None ->
  outcome_of (csr_hook Data k reg_index val) m = Returned tt /\
  (forall e, outcome_of (csr_hook Data k reg_index val) m <> Failed e) /\
  ext (machine_after (csr_hook Data k reg_index val) m) = ext m.
Proof.
  intros _ _. hook_steps. repeat split. intros e. discriminate.
Qed.

Lemma unknown_selector_data_access_witness :
  registry (ext (machine_at 9 0 0)) !! 9 = None /\
  outcome_of (csr_hook Data Write 0x800 1) (machine_at 9 0 0) = Returned tt.
Proof.
  split; [reflexivity |].
  apply (unknown_selector_data_access Write 0x800 1 (machine_at 9 0 0)).
  - simpl. lia.
  - reflexivity.
Defined.

(** ** Claims about the handler: translation and round trip *)

(** C8, as stated, fails: with the array module selected and index 99 out
    of its 16 words the handler's status is BadIndex, yet the Data write
    returns normally instead of failing with InvalidWindow. *)
Lemma status_translation_fails :
  ~ status_translation Write 0x800 1 (machine_at 5 0 99).
Proof.
  intros H. specialize (H array_handler).
  rewrite outcome_of_hook in H.
  assert (Hsel : cxsel (cx (env (machine_at 5 0 99))) <> 0) by (simpl; lia).
  specialize (H Hsel eq_refl). vm_compute in H. discriminate H.
Qed.

(** C8, amended: a Data-register access never reaches a registered
    handler.  Whatever status the handler has for the current coordinates
    (Ok, BadSetSelector, BadIndex or a module-defined one), the access
    returns normally, no status is translated into a failure, and the
    extension world (handler calls, module stores) is untouched. *)
Theorem data_access_ignores_handler (k : AccessKind) (reg_index : uint32_t)
    (val : target_ulong) (m : Machine) (h : ExtensionHandler) :
  cxsel (cx (env m)) <> 0 ->
  registry (ext m) !! cxsel (cx (env m)) = Some h ->
  outcome_of (csr_hook Data k reg_index val) m = Returned tt /\
  (forall e, outcome_of (csr_hook Data k reg_index val) m <> Failed e) /\
  ext (machine_after (csr_hook Data k reg_index val) m) = ext m.
Proof.
  intros _ _. hook_steps. repeat split. intros e. discriminate.
Qed.

Lemma data_access_ignores_handler_witness :
  handler_status array_handler Write (module_store (machine_at 5 0 99) 5) 0 99 1
    = BadIndex /\
  outcome_of (csr_hook Data Write 0x800 1) (machine_at 5 0 99) = Returned tt.
Proof.
  split; [reflexivity |].
  apply (data_access_ignores_handler Write 0x800 1 (machine_at 5 0 99) array_handler).
  - simpl. lia.
  - reflexivity.
Defined.

(** The five hooks of the round-trip sequence, run one after the other. *)
Lemma program_and_round_trip_run (r_sel r_setsel r_idx r_data : uint32_t)
    (sel s i v val : target_ulong) (m : Machine) :
  program_and_round_trip r_sel r_setsel r_idx r_data sel s i v val m =
  (Returned tt,
   {| env := env m;
      trace_log := trace_log m ++
        [hook_event Selector Write m r_sel sel;
         hook_event SetSelector Write m r_setsel s;
         hook_event Index Write m r_idx i;
         hook_event Data Write m r_data v;
         hook_event Data Read m r_data val];
      ext := ext m |}).
Proof.
  unfold program_and_round_trip, cxsel_csr_write, cxsetsel_csr_write,
    cxidx_csr_write, cxdata_csr_write, cxdata_csr_read, mbind, exec_bind.
  unfold hook_event. simpl.
  unfold trace_cxdata_csr_read, emit. simpl.
  now rewrite <- !app_assoc.
Qed.

(** C3, as stated, fails: with the array module at selector 5, after
    programming (5, 0, 3) and writing 0x42, a Data read handed 0 (what the
    module still holds at (0, 3): the write never reached it) reports 0,
    not 0x42. *)
Lemma data_round_trip_fails :
  ~ data_round_trip 0x800 0x801 0x802 0x803 5 0 3 0x42 0 reset_machine.
Proof.
  intros H. specialize (H array_handler eq_refl).
  destruct H as [_ Hval].
  - apply array_handler_round_trip. lia.
  - unfold machine_after in Hval.
    rewrite program_and_round_trip_run in Hval.
    vm_compute in Hval. discriminate Hval.
Qed.

(** C3, amended: for a registered module whose handler has the round-trip
    property, the sequence write_selector(sel); write_setselector(s);
    write_index(i); write_data(v); read_data succeeds, every hook returning
    normally; the read returns no value and reports the value [val] its
    caller hands it (so [v] exactly when the caller hands [v]); the handler
    is never invoked and its store is untouched. *)
Theorem data_round_trip_reports_argument (r_sel r_setsel r_idx r_data : uint32_t)
    (sel s i v val : target_ulong) (m : Machine) (h : ExtensionHandler) :
  registry (ext m) !! sel = Some h ->
  handler_round_trip h s i v ->
  succeeds_with (program_and_round_trip r_sel r_setsel r_idx r_data sel s i v val) m val /\
  ext (machine_after
         (program_and_round_trip r_sel r_setsel r_idx r_data sel s i v val) m) = ext m.
Proof.
  intros _ _. unfold succeeds_with, outcome_of, machine_after.
  rewrite program_and_round_trip_run. simpl. repeat split.
  change (trace_log m ++
          [hook_event Selector Write m r_sel sel;
           hook_event SetSelector Write m r_setsel s;
           hook_event Index Write m r_idx i;
           hook_event Data Write m r_data v;
           hook_event Data Read m r_data val])
    with (trace_log m ++
          [hook_event Selector Write m r_sel sel;
           hook_event SetSelector Write m r_setsel s;
           hook_event Index Write m r_idx i;
           hook_event Data Write m r_data v] ++
          [hook_event Data Read m r_data val]).
  rewrite app_assoc. now rewrite reported_value_snoc.
Qed.

Lemma data_round_trip_reports_argument_witness :
  registry (ext reset_machine) !! 5 = Some array_handler /\
  succeeds_with
    (program_and_round_trip 0x800 0x801 0x802 0x803 5 0 3 0x42 0x42) reset_machine 0x42.
Proof.
  split; [reflexivity |].
  apply (data_round_trip_reports_argument
           0x800 0x801 0x802 0x803 5 0 3 0x42 0x42 reset_machine array_handler).
  - reflexivity.
  - apply array_handler_round_trip. lia.
Defined.

(** ** Claims about the coordinate registers *)

(** A Selector write followed by a Selector read. *)
Lemma selector_write_read_run (reg_index : uint32_t) (v val : target_ulong)
    (m : Machine) :
  (cxsel_csr_write reg_index v ;; cxsel_csr_read reg_index val) m =
  (Returned tt,
   {| env := env m;
      trace_log := (trace_log m ++ [hook_event Selector Write m reg_index v]) ++
                   [hook_event Selector Read m reg_index val];
      ext := ext m |}).
Proof. reflexivity. Qed.

(** C2, as stated, fails: on the reset hart, after a Selector write of 5 a
    Selector read handed the stored Selector (still 0) reports 0, not 5. *)
Lemma selector_persistence_fails :
  ~ selector_persistence 0x800 5 0 reset_machine.
Proof.
  intros [_ Hval]. unfold machine_after in Hval.
  rewrite selector_write_read_run in Hval. cbn [snd] in Hval.
  rewrite reported_value_snoc in Hval. discriminate Hval.
Qed.

(** C2, amended: for every value [v], 0 included, a Selector write of [v]
    followed by a Selector read returns normally; the read hook returns no
    value and reports exactly the value [val] its caller hands it (so
    exactly [v] when the caller hands it [v]); the write stores nothing,
    the hart's state is as before. *)
Theorem selector_read_reports_argument (reg_index : uint32_t)
    (v val : target_ulong) (m : Machine) :
  succeeds_with (cxsel_csr_write reg_index v ;; cxsel_csr_read reg_index val) m val /\
  succeeds_with (cxsel_csr_write reg_index v ;; cxsel_csr_read reg_index v) m v /\
  env (machine_after (cxsel_csr_write reg_index v ;; cxsel_csr_read reg_index val) m)
    = env m.
Proof.
  unfold succeeds_with, outcome_of, machine_after.
  rewrite !selector_write_read_run. cbn [fst snd].
  rewrite !reported_value_snoc. repeat split.
Qed.

(** C7, as stated, fails: on the reset hart a Selector write of 5 leaves
    the stored Selector at 0. *)
Lemma coordinate_write_assigns_fails :
  ~ coordinate_write_assigns CoordSelector 0x800 5 reset_machine.
Proof.
  intros (_ & Hval & _). rewrite machine_after_hook in Hval.
  simpl in Hval. discriminate Hval.
Qed.

(** C7, amended: the three coordinate-register write hooks are infallible:
    for every value they return normally, never with an error, and each
    emits exactly one trace event, carrying the value; they assign
    nothing, the hart's state is left as it was. *)
Theorem coordinate_write_infallible (c : Coordinate) (reg_index : uint32_t)
    (v : target_ulong) (m : Machine) :
  let m' := machine_after (csr_hook (coord_reg c) Write reg_index v) m in
  outcome_of (csr_hook (coord_reg c) Write reg_index v) m = Returned tt /\
  (forall e, outcome_of (csr_hook (coord_reg c) Write reg_index v) m <> Failed e) /\
  trace_log m' = trace_log m ++ [hook_event (coord_reg c) Write m reg_index v] /\
  env m' = env m.
Proof.
  hook_steps. repeat split. intros e. discriminate.
Qed.

(** C5: a Data-register access, read or write, whatever its outcome,
    leaves the Selector, Set-Selector and Index of the hart's state as
    they were. *)
Theorem data_access_keeps_coordinates (k : AccessKind) (reg_index : uint32_t)
    (val : target_ulong) (m : Machine) :
  let m' := machine_after (csr_hook Data k reg_index val) m in
  cxsel (cx (env m')) = cxsel (cx (env m)) /\
  cxsetsel (cx (env m')) = cxsetsel (cx (env m)) /\
  cxidx (cx (env m')) = cxidx (cx (env m)).
Proof. hook_steps. repeat split. Qed.

(** ** Claims about the trace *)

(** C6: every one of the eight register operations produces exactly one
    trace event; it carries the hart id, the register concerned (its name
    and its index) and the value involved. *)
Theorem every_access_reports_once (r : CxReg) (k : AccessKind)
    (reg_index : uint32_t) (val : target_ulong) (m : Machine) :
  exists e : TraceEvent,
    trace_log (machine_after (csr_hook r k reg_index val) m) = trace_log m ++ [e] /\
    ev_hartid e = mhartid (env m) /\
    ev_reg e = r /\ ev_kind e = k /\ ev_reg_index e = reg_index /\
    ev_val e = val.
Proof.
  exists (hook_event r k m reg_index val). hook_steps. repeat split.
Qed.

(** C9: each of the eight hooks leaves the CPU state entirely unchanged;
    of the state it reads [mhartid] only (replacing the window coordinates
    by any others changes neither the outcome nor the event); its only
    effect is the one trace emission. *)
Theorem hooks_leave_cpu_state (r : CxReg) (k : AccessKind)
    (reg_index : uint32_t) (val : target_ulong) (m : Machine) :
  let m' := machine_after (csr_hook r k reg_index val) m in
  env m' = env m /\
  ext m' = ext m /\
  trace_log m' = trace_log m ++ [hook_event r k m reg_index val] /\
  forall w : CxWindowState,
    csr_hook r k reg_index val (with_cx w m) =
    (outcome_of (csr_hook r k reg_index val) m, with_cx w m').
Proof.
  hook_steps. repeat split. intros w.
  now rewrite csr_hook_run.
Qed.

(** C10: for each of the four registers the read hook and the write hook
    are the same up to the name of the trace event: both are the
    trace-only computation, both return no value, both take the value as an
    argument and report it, and their traces agree once the access kind is
    forgotten; a read hook hands back the same (empty) result whatever the
    registers of the hart hold. *)
Theorem read_write_hooks_alike (r : CxReg) (reg_index : uint32_t)
    (val : target_ulong) (m : Machine) :
  csr_hook r Read reg_index val m = trace_only r Read reg_index val m /\
  csr_hook r Write reg_index val m = trace_only r Write reg_index val m /\
  outcome_of (csr_hook r Read reg_index val) m = Returned tt /\
  outcome_of (csr_hook r Write reg_index val) m = Returned tt /\
  env (machine_after (csr_hook r Read reg_index val) m) =
    env (machine_after (csr_hook r Write reg_index val) m) /\
  ext (machine_after (csr_hook r Read reg_index val) m) =
    ext (machine_after (csr_hook r Write reg_index val) m) /\
  forget_kind <$> trace_log (machine_after (csr_hook r Read reg_index val) m) =
    forget_kind <$> trace_log (machine_after (csr_hook r Write reg_index val) m) /\
  reported_value (machine_after (csr_hook r Read reg_index val) m) = Some val /\
  forall w : CxWindowState,
    outcome_of (csr_hook r Read reg_index val) (with_cx w m) = Returned tt.
Proof.
  rewrite !csr_hook_run. hook_steps.
  rewrite reported_value_snoc, !fmap_app. repeat split.
  intros w. apply outcome_of_hook.
Qed.

(** ** Sequences of accesses *)

Lemma run_access_run (a : Access) (m : Machine) :
  run_access a m =
  (Returned tt,
   {| env := env m;
      trace_log := trace_log m ++ [access_event (mhartid (env m)) a];
      ext := ext m |}).
Proof. unfold run_access. now rewrite csr_hook_run. Qed.

Lemma run_accesses_run (l : list Access) (m : Machine) :
  run_accesses l m =
  (Returned tt,
   {| env := env m;
      trace_log := trace_log m ++ (access_event (mhartid (env m)) <$> l);
      ext := ext m |}).
Proof.
  revert m. induction l as [| a l IH]; intros m.
  - simpl. rewrite app_nil_r. now destruct m.
  - cbn [run_accesses]. rewrite (seq_run _ _ _ _ _ (run_access_run a m)).
    rewrite IH. cbn [env trace_log ext fmap list_fmap].
    now rewrite <- app_assoc.
Qed.

(** X1: a sequence of accesses of any length never fails; it leaves the
    CPU state and the extension world as they were, keeps the log it
    found, and adds one event per access, in the order of the calls. *)
Theorem accesses_append_their_events (l : list Access) (m : Machine) :
  outcome_of (run_accesses l) m = Returned tt /\
  env (machine_after (run_accesses l) m) = env m /\
  ext (machine_after (run_accesses l) m) = ext m /\
  trace_log (machine_after (run_accesses l) m) =
    trace_log m ++ (access_event (mhartid (env m)) <$> l).
Proof.
  unfold outcome_of, machine_after. rewrite run_accesses_run. repeat split.
Qed.

(** X2: the accesses made can be read back from the trace: the events
    logged by a sequence of accesses decode to exactly that sequence, with
    registers, kinds, register indices and values in call order. *)
Theorem accesses_recovered_from_trace (l : list Access) (m : Machine) :
  event_access <$> events_since m (machine_after (run_accesses l) m) = l.
Proof.
  unfold events_since, machine_after. rewrite run_accesses_run.
  cbn [snd trace_log]. rewrite drop_app_length.
  induction l as [| a l IH]; [reflexivity |].
  cbn [fmap list_fmap]. rewrite IH. now destruct a.
Qed.

(** X3: the log is append-only: after any sequence of accesses the former
    log is a prefix of the new one, and the log is longer by the number of
    accesses; nothing is dropped, merged or rewritten, repeated accesses
    included. *)
Theorem trace_log_append_only (l : list Access) (m : Machine) :
  trace_log m `prefix_of` trace_log (machine_after (run_accesses l) m) /\
  length (trace_log (machine_after (run_accesses l) m)) =
    (length (trace_log m) + length l)%nat.
Proof.
  unfold machine_after. rewrite run_accesses_run. cbn [snd trace_log]. split.
  - now apply prefix_app_r.
  - now rewrite length_app, length_fmap.
Qed.


(** X5: hart attribution is kept: if every event of the log carries the
    hart id of the machine, so does every event after any sequence of
    accesses. *)
Theorem log_of_this_hart_kept (l : list Access) (m : Machine) :
  log_of_this_hart m ->
  log_of_this_hart (machine_after (run_accesses l) m).
Proof.
  unfold log_of_this_hart, machine_after. intros H.
  rewrite run_accesses_run. cbn [snd env trace_log].
  apply Forall_app. split; [exact H |].
  apply Forall_fmap, Forall_forall. intros a _. reflexivity.
Qed.

Lemma log_of_this_hart_kept_witness :
  log_of_this_hart reset_machine /\
  log_of_this_hart
    (machine_after
       (run_accesses [mkAccess Selector Write 0x800 5; mkAccess Data Read 0x803 0])
       reset_machine).
Proof.
  split; [constructor |].
  apply (log_of_this_hart_kept
           [mkAccess Selector Write 0x800 5; mkAccess Data Read 0x803 0]
           reset_machine).
  constructor.
Defined.

(** X6: the eight hooks are told apart by what they do: two hook calls that
    leave the same machine behind are calls of the same hook (same register
    and access kind) with the same register index and value. *)
Theorem csr_hook_injective (r r' : CxReg) (k k' : AccessKind)
    (reg_index reg_index' : uint32_t) (val val' : target_ulong) (m : Machine) :
  csr_hook r k reg_index val m = csr_hook r' k' reg_index' val' m ->
  r = r' /\ k = k' /\ reg_index = reg_index' /\ val = val'.
Proof.
  rewrite !csr_hook_run. unfold trace_only, hook_event. intros H.
  injection H as H. apply app_inv_head in H.
  inversion H. repeat split.
Qed.

Lemma csr_hook_injective_witness :
  Data = Data /\ Write = Write /\ 0x803 = 0x803 /\ 0x42 = 0x42.
Proof.
  apply (csr_hook_injective Data Data Write Write 0x803 0x803 0x42 0x42 reset_machine).
  reflexivity.
Defined.

(** X7: the order of two accesses shows in the trace: two accesses run in
    either order leave the same machine behind only if they are the same
    access. *)
Theorem access_order_observable (a b : Access) (m : Machine) :
  run_accesses [a; b] m = run_accesses [b; a] m -> a = b.
Proof.
  rewrite !run_accesses_run. intros H.
  injection H as H. apply app_inv_head in H.
  cbn [fmap list_fmap] in H.
  destruct a, b. unfold access_event in H. cbn in H.
  inversion H. reflexivity.
Qed.

Lemma access_order_observable_witness :
  mkAccess Index Write 0x802 3 = mkAccess Index Write 0x802 3.
Proof.
  apply (access_order_observable
           (mkAccess Index Write 0x802 3) (mkAccess Index Write 0x802 3) reset_machine).
  reflexivity.
Defined.
